(** * IPv4-Address-Validator: [is_valid_ipv4] of [ip_validator.py]

    A shallow embedding of the validator and of the Python built-ins it
    calls ([isinstance], [str.strip], [str.split], [len], indexing and
    [int]), followed by the properties of the validator.

    Python strings are sequences of Unicode code points; the built-ins are
    embedded after CPython's implementation of them ([do_strip],
    [PyLong_FromUnicodeObject], [PyLong_FromString]).  The two parts of the
    interpreter that change between releases, the table of Unicode decimal
    digits and the limit on the number of digits [int] converts, are kept
    in a record [runtime]; the general theorems hold for every runtime. *)

From Stdlib Require Import List NArith ZArith Bool Lia String Ascii.
Import ListNotations.

Set Warnings "-register-all".

(** ** Strings *)

(** A character is a Unicode code point, a string a list of them. *)
Definition char : Type := N.
Definition str : Type := list char.

(** [len(s)] *)
Definition len (s : str) : nat := List.length s.

(** A Python literal made of ASCII characters. *)
Definition py (s : string) : str := map N_of_ascii (list_ascii_of_string s).

Definition c_space : char := Eval cbv in N_of_ascii " ".
Definition c_plus : char := Eval cbv in N_of_ascii "+".
Definition c_minus : char := Eval cbv in N_of_ascii "-".
Definition c_dot : char := Eval cbv in N_of_ascii ".".
Definition c_zero : char := Eval cbv in N_of_ascii "0".
Definition c_nine : char := Eval cbv in N_of_ascii "9".
Definition c_qmark : char := Eval cbv in N_of_ascii "?".
Definition c_underscore : char := Eval cbv in N_of_ascii "_".

(** ** Values, exceptions and outcomes *)

(** The values a caller can hand to the function. *)
Inductive value : Type :=
| VNone
| VBool (b : bool)
| VInt (z : Z)
| VList (items : list value)
| VDict (items : list (value * value))
| VStr (s : str).

(** [isinstance(v, str)] *)
Definition isinstance_str (v : value) : bool :=
  match v with
  | VStr _ => true
  | _ => false
  end.

(** The exceptions met in the module.  The text of a [ValueError] is never
    looked at by the code, so it is not kept. *)
Inductive exn : Type :=
| TypeError (msg : string)
| ValueError.

Inductive outcome (A : Type) : Type :=
| Returns (a : A)
| Raises (e : exn).

Arguments Returns {A} a.
Arguments Raises {A} e.

Definition bind {A B : Type} (m : outcome A) (k : A -> outcome B) : outcome B :=
  match m with
  | Returns a => k a
  | Raises e => Raises e
  end.

Notation "x <- m ;; k" := (bind m (fun x => k))
  (at level 61, m at next level, right associativity).

(** [try: body / except ValueError: handler] *)
Definition try_except_ValueError {A : Type} (body handler : outcome A) : outcome A :=
  match body with
  | Raises ValueError => handler
  | other => other
  end.

(** ** Character classes of the interpreter *)

Definition between (lo hi ch : char) : bool := ((lo <=? ch) && (ch <=? hi))%N.

(** [Py_UNICODE_ISSPACE]: what [str.strip] removes and what [int] turns
    into a blank. *)
Definition Py_UNICODE_ISSPACE (ch : char) : bool :=
  (between 0x09 0x0D ch || between 0x1C 0x20 ch
   || (ch =? 0x85) || (ch =? 0xA0) || (ch =? 0x1680)
   || between 0x2000 0x200A ch
   || (ch =? 0x2028) || (ch =? 0x2029) || (ch =? 0x202F)
   || (ch =? 0x205F) || (ch =? 0x3000))%N.

(** [Py_ISSPACE]: the blanks of the C locale, which [PyLong_FromString]
    skips. *)
Definition Py_ISSPACE (ch : char) : bool :=
  (between 0x09 0x0D ch || (ch =? c_space))%N.

(** A digit of base 10 ([_PyLong_DigitValue[ch] < 10]) and its value. *)
Definition is_digit (ch : char) : bool := between c_zero c_nine ch.
Definition digit_value (ch : char) : Z := Z.of_N ch - Z.of_N c_zero.

(** ** The parts of the interpreter that vary *)

Record runtime : Type := {
  (** [Py_UNICODE_TODECIMAL] on a code point that is not ASCII *)
  todecimal : char -> option N;
  (** [sys.get_int_max_str_digits()]; 0 switches the limit off *)
  max_str_digits : nat
}.

(** The code points of the digit zero of every decimal script of
    Unicode 14.0; the nine following code points are the digits 1 to 9. *)
Definition decimal_zeros : list N :=
  [ 0x660; 0x6F0; 0x7C0; 0x966; 0x9E6; 0xA66; 0xAE6; 0xB66; 0xBE6; 0xC66;
    0xCE6; 0xD66; 0xDE6; 0xE50; 0xED0; 0xF20; 0x1040; 0x1090; 0x17E0;
    0x1810; 0x1946; 0x19D0; 0x1A80; 0x1A90; 0x1B50; 0x1BB0; 0x1C40; 0x1C50;
    0xA620; 0xA8D0; 0xA900; 0xA9D0; 0xA9F0; 0xAA50; 0xABF0; 0xFF10;
    0x104A0; 0x10D30; 0x11066; 0x110F0; 0x11136; 0x111D0; 0x112F0; 0x11450;
    0x114D0; 0x11650; 0x116C0; 0x11730; 0x118E0; 0x11950; 0x11C50; 0x11D50;
    0x11DA0; 0x16A60; 0x16AC0; 0x16B50; 0x1D7CE; 0x1D7D8; 0x1D7E2; 0x1D7EC;
    0x1D7F6; 0x1E140; 0x1E2F0; 0x1E950; 0x1FBF0 ]%N.

Definition unicode14_todecimal (ch : char) : option N :=
  match find (fun z => between z (z + 9)%N ch) decimal_zeros with
  | Some z => Some (ch - z)%N
  | None => None
  end.

(** CPython 3.11 with its defaults. *)
Definition cpython311 : runtime :=
  {| todecimal := unicode14_todecimal; max_str_digits := 4300 |}.

(** ** [str.strip] and [str.split] *)

Fixpoint lstrip (s : str) : str :=
  match s with
  | [] => []
  | ch :: rest => if Py_UNICODE_ISSPACE ch then lstrip rest else s
  end.

Fixpoint rstrip (s : str) : str :=
  match s with
  | [] => []
  | ch :: rest =>
      match rstrip rest with
      | [] => if Py_UNICODE_ISSPACE ch then [] else [ch]
      | kept => ch :: kept
      end
  end.

(** [s.strip()] *)
Definition strip (s : str) : str := rstrip (lstrip s).

(** [s.split(sep)] for a separator of one character: the pieces between
    the separators, empty ones included; never an empty list. *)
Fixpoint split (sep : char) (s : str) : list str :=
  match s with
  | [] => [[]]
  | ch :: rest =>
      if (ch =? sep)%N then [] :: split sep rest
      else match split sep rest with
           | [] => [[ch]]
           | piece :: pieces => (ch :: piece) :: pieces
           end
  end.

(** ** [int(s)] on a string *)

Section Interpreter.

Variable rt : runtime.

Definition is_ascii (s : str) : bool := forallb (fun ch => (ch <? 128)%N) s.

(** The loop of [_PyUnicode_TransformDecimalAndSpaceToASCII]: blanks become
    a space, digits of any script the ASCII digit, and the text is cut
    after a [?] put in place of the first character that is neither. *)
Fixpoint transform_loop (s : str) : str :=
  match s with
  | [] => []
  | ch :: rest =>
      if (ch <? 127)%N then ch :: transform_loop rest
      else if Py_UNICODE_ISSPACE ch then c_space :: transform_loop rest
      else match todecimal rt ch with
           | Some d => (c_zero + d)%N :: transform_loop rest
           | None => [c_qmark]
           end
  end.

Definition transform_decimal_and_space_to_ascii (s : str) : str :=
  if is_ascii s then s else transform_loop s.

Fixpoint skip_spaces (p : str) : str :=
  match p with
  | [] => []
  | ch :: rest => if Py_ISSPACE ch then skip_spaces rest else p
  end.

(** The validating loop of [long_from_string_base]: digits and single
    underscores.  It yields the last character read, the number of
    digits, their value and the text left; [None] on a doubled
    underscore.  (CPython computes the value in a second pass over the
    same digits.) *)
Fixpoint scan_digits (prev : char) (digits : nat) (acc : Z) (p : str)
  : option (char * nat * Z * str) :=
  match p with
  | [] => Some (prev, digits, acc, p)
  | ch :: rest =>
      if is_digit ch then
        scan_digits ch (S digits) (10 * acc + digit_value ch) rest
      else if (ch =? c_underscore)%N then
        if (prev =? c_underscore)%N then None
        else scan_digits ch digits acc rest
      else Some (prev, digits, acc, p)
  end.

(** The threshold below which the digit limit is not consulted. *)
Definition MAX_STR_DIGITS_THRESHOLD : nat := 640.

(** [PyLong_FromString(s, &end, 10)] together with the test of
    [PyLong_FromUnicodeObject] that the whole text was read.  A NUL in the
    text stops the C scanner before the end of the buffer, which is a
    [ValueError] as for any other character left over. *)
Definition PyLong_FromString (s : str) : outcome Z :=
  let p := skip_spaces s in
  let '(sign, p) :=
    match p with
    | ch :: rest =>
        if (ch =? c_plus)%N then (1%Z, rest)
        else if (ch =? c_minus)%N then ((-1)%Z, rest)
        else (1%Z, p)
    | [] => (1%Z, p)
    end in
  match p with
  | ch :: _ => if (ch =? c_underscore)%N then Raises ValueError else
      match scan_digits 0%N 0 0%Z p with
      | None => Raises ValueError
      | Some (prev, digits, acc, rest) =>
          if (prev =? c_underscore)%N then Raises ValueError
          else if (len rest =? len p)%nat then Raises ValueError
          else match skip_spaces rest with
               | _ :: _ => Raises ValueError
               | [] =>
                   if (MAX_STR_DIGITS_THRESHOLD <? digits)%nat
                      && (0 <? max_str_digits rt)%nat
                      && (max_str_digits rt <? digits)%nat
                   then Raises ValueError
                   else Returns (sign * acc)%Z
               end
      end
  | [] => Raises ValueError
  end.

(** [int(s)] *)
Definition int_str (s : str) : outcome Z :=
  PyLong_FromString (transform_decimal_and_space_to_ascii s).

(** ** The validator *)

(** [len(octet) > 1 and octet[0] == '0'] *)
Definition has_leading_zero (octet : str) : bool :=
  (1 <? len octet)%nat &&
  match octet with
  | ch :: _ => (ch =? c_zero)%N
  | [] => false
  end.

(** [0 <= num <= 255] *)
Definition in_range (num : Z) : bool := ((0 <=? num) && (num <=? 255))%Z.

(** The body of the [for] loop: [Some b] when it executes [return b],
    [None] when it reaches its end and the loop goes on. *)
Definition octet_body (octet : str) : outcome (option bool) :=
  if match octet with [] => true | _ => false end then Returns (Some false)
  else if has_leading_zero octet then Returns (Some false)
  else
    try_except_ValueError
      (num <- int_str octet ;;
       if negb (in_range num) then Returns (Some false) else Returns None)
      (Returns (Some false)).

(** [for octet in octets: ...] followed by [return True] *)
Fixpoint for_octets (octets : list str) : outcome bool :=
  match octets with
  | [] => Returns true
  | octet :: rest =>
      returned <- octet_body octet ;;
      match returned with
      | Some b => Returns b
      | None => for_octets rest
      end
  end.

Definition is_valid_ipv4 (ip_address : value) : outcome bool :=
  match ip_address with
  | VStr s =>
      let ip_address := strip s in
      let octets := split c_dot ip_address in
      if negb (List.length octets =? 4)%nat then Returns false
      else for_octets octets
  | _ => Raises (TypeError "Input 'ip_address' must be a string.")
  end.

End Interpreter.

(** ** The grammar of the specification *)

(** A purely numeric segment: not empty, decimal digits only. *)
Definition purely_numeric (octet : str) : bool :=
  match octet with
  | [] => false
  | _ => forallb is_digit octet
  end.

(** The value of a sequence of decimal digits, read in base 10. *)
Definition decimal_value (octet : str) : Z :=
  fold_left (fun acc ch => (10 * acc + digit_value ch)%Z) octet 0%Z.

(** A segment of the dotted-decimal grammar: not empty, digits only, no
    leading zero, value from 0 to 255. *)
Definition grammar_octet (octet : str) : bool :=
  purely_numeric octet && negb (has_leading_zero octet)
  && in_range (decimal_value octet).

(** The dotted-decimal grammar of four octets. *)
Definition matches_grammar (s : str) : bool :=
  let octets := split c_dot s in
  (List.length octets =? 4)%nat && forallb grammar_octet octets.

(** A segment with a character that is no decimal digit. *)
Definition has_non_digit (octet : str) : bool :=
  existsb (fun ch => negb (is_digit ch)) octet.

(** ** Companions of the built-ins *)

(** [sep.join(pieces)] for a separator of one character. *)
Fixpoint join (sep : char) (pieces : list str) : str :=
  match pieces with
  | [] => []
  | piece :: rest =>
      match rest with
      | [] => piece
      | _ => piece ++ sep :: join sep rest
      end
  end.

(** [s.count(ch)] *)
Definition count (ch : char) (s : str) : nat := count_occ N.eq_dec s ch.

(** The ASCII characters [PyLong_FromString] can read in base 10: digits,
    the blanks of the C locale, the two signs and the underscore. *)
Definition int_plain (ch : char) : bool :=
  is_digit ch || Py_ISSPACE ch
  || (ch =? c_plus)%N || (ch =? c_minus)%N || (ch =? c_underscore)%N.

(** ** The demonstration block of the module *)

Inductive status : Type := PASS | FAIL.

(** A line printed by the block, kept by its fields rather than as the
    formatted text. *)
Inductive report : Type :=
| Banner (text : string)
    (** a heading *)
| Verdict (ip_str : value) (expected_result actual_result : bool) (st : status)
    (** [Test '..' (Expected: .., Actual: ..) -> PASS] or [FAIL] *)
| RaisedTypeError (ip_str : value) (msg : string)
    (** [... -> PASS (Correctly raised TypeError)] *)
| UnexpectedError (ip_str : value) (msg : string)
    (** [Test '..' (Unexpected Error: ..) -> FAIL] *)
| UnexpectedException (ip_str : value) (e : exn)
    (** [Test '..' (Unexpected Exception: ..) -> FAIL] *)
| NoError (ip_str : value).
    (** [Test '..' (Expected TypeError, Actual: No Error) -> FAIL] *)

(** The word a line ends its test with, if it reports a test. *)
Definition report_status (r : report) : option status :=
  match r with
  | Banner _ => None
  | Verdict _ _ _ st => Some st
  | RaisedTypeError _ _ => Some PASS
  | UnexpectedError _ _ => Some FAIL
  | UnexpectedException _ _ => Some FAIL
  | NoError _ => Some FAIL
  end.

Definition reports_failure (r : report) : bool :=
  match report_status r with
  | Some FAIL => true
  | _ => false
  end.

Definition is_None (v : value) : bool :=
  match v with
  | VNone => true
  | _ => false
  end.

Definition nl : string := String (ascii_of_nat 10) EmptyString.

(** [test_ips] *)
Definition test_ips : list (value * bool) :=
  map (fun row => (VStr (py (fst row)), snd row))
    [ ("192.168.1.1", true); ("0.0.0.0", true); ("255.255.255.255", true);
      ("10.0.0.1", true); ("127.0.0.1", true); ("1.1.1.1", true);
      ("192.168.1", false); ("192.168.1.1.1", false); ("256.0.0.0", false);
      ("-1.0.0.0", false); ("192.168.01.1", false); ("192.168..1", false);
      ("abc.def.ghi.jkl", false); ("192.168.1.", false); (".1.1.1.1", false);
      ("123.456.789.0", false); ("1.2.3.4 ", false); (" 1.2.3.4", false);
      ("1.2.3. 4", false); ("", false); (" ", false);
      ("  192.168.1.1  ", false) ]%string.

(** [non_string_inputs] *)
Definition non_string_inputs : list (value * bool) :=
  [ (VNone, false);
    (VInt 123456789, false);
    (VList [VStr (py "1.1.1.1")], false);
    (VDict [(VStr (py "ip"), VStr (py "1.1.1.1"))], false) ].

Section Demonstration.

Variable rt : runtime.

(** The body of the first loop, for one row of the table. *)
Definition check_row (row : value * bool) : report :=
  let '(ip_str, expected_result) := row in
  match is_valid_ipv4 rt ip_str with
  | Returns actual_result =>
      let st := if Bool.eqb actual_result expected_result then PASS else FAIL in
      Verdict ip_str expected_result actual_result st
  | Raises (TypeError msg) =>
      if is_None ip_str || negb (isinstance_str ip_str)
      then RaisedTypeError ip_str msg
      else UnexpectedError ip_str msg
  | Raises e => UnexpectedException ip_str e
  end.

(** The body of the second loop. *)
Definition check_type_error_row (row : value * bool) : report :=
  let '(ip_str, expected_result) := row in
  match is_valid_ipv4 rt ip_str with
  | Returns _ => NoError ip_str
  | Raises (TypeError msg) => RaisedTypeError ip_str msg
  | Raises e => UnexpectedException ip_str e
  end.

(** What running the module as a script prints. *)
Definition main : list report :=
  [ Banner "--- IPv4 Address Validation Examples ---";
    Banner ("This section demonstrates the functionality of the is_valid_ipv4 function."
            ++ nl) ]
  ++ map check_row test_ips
  ++ [ Banner (nl ++ "--- Additional Type Error Tests ---") ]
  ++ map check_type_error_row non_string_inputs.

End Demonstration.

(** ** Facts on [strip] and [split] *)

Lemma lstrip_keeps (ch : char) (rest : str) :
  Py_UNICODE_ISSPACE ch = false -> lstrip (ch :: rest) = ch :: rest.
Proof. intros H. simpl. now rewrite H. Qed.

Lemma lstrip_head (s : str) :
  lstrip s = [] \/
  exists ch rest, lstrip s = ch :: rest /\ Py_UNICODE_ISSPACE ch = false.
Proof.
  induction s as [|ch rest IH]; simpl.
  - now left.
  - destruct (Py_UNICODE_ISSPACE ch) eqn:E; [exact IH|].
    right. now exists ch, rest.
Qed.

Lemma lstrip_blank (s : str) :
  forallb Py_UNICODE_ISSPACE s = true -> lstrip s = [].
Proof.
  induction s as [|ch rest IH]; simpl; [reflexivity|].
  intros H. apply andb_true_iff in H as [Hc Hr]. rewrite Hc. now apply IH.
Qed.

Lemma rstrip_keeps (ch : char) (rest : str) :
  Py_UNICODE_ISSPACE ch = false -> rstrip (ch :: rest) = ch :: rstrip rest.
Proof. intros H. simpl. destruct (rstrip rest); now rewrite ?H. Qed.

Lemma rstrip_idem (s : str) : rstrip (rstrip s) = rstrip s.
Proof.
  induction s as [|ch rest IH]; simpl; [reflexivity|].
  destruct (rstrip rest) as [|k ks] eqn:E.
  - destruct (Py_UNICODE_ISSPACE ch) eqn:Hc; simpl; now rewrite ?Hc.
  - change (rstrip (ch :: k :: ks)) with
      (match rstrip (k :: ks) with
       | [] => if Py_UNICODE_ISSPACE ch then [] else [ch]
       | kept => ch :: kept
       end).
    now rewrite IH.
Qed.

Lemma strip_idem (s : str) : strip (strip s) = strip s.
Proof.
  unfold strip.
  destruct (lstrip_head s) as [E | (ch & rest & E & Hc)]; rewrite E.
  - reflexivity.
  - rewrite (rstrip_keeps ch rest Hc), (lstrip_keeps ch _ Hc), (rstrip_keeps ch _ Hc).
    now rewrite rstrip_idem.
Qed.

Lemma strip_blank (s : str) :
  forallb Py_UNICODE_ISSPACE s = true -> strip s = [].
Proof. intros H. unfold strip. now rewrite (lstrip_blank s H). Qed.

(** ** Facts on the scanner of [int] *)

Lemma is_digit_bounds (ch : char) :
  is_digit ch = true <-> (48 <= ch <= 57)%N.
Proof.
  unfold is_digit, between, c_zero, c_nine.
  rewrite andb_true_iff, !N.leb_le. tauto.
Qed.

Lemma digit_value_bounds (ch : char) :
  is_digit ch = true -> (0 <= digit_value ch <= 9)%Z.
Proof.
  intros H. apply is_digit_bounds in H. unfold digit_value, c_zero. lia.
Qed.

(** A digit is none of the characters the scanner treats apart. *)
Lemma digit_is_plain (ch : char) :
  is_digit ch = true ->
  Py_ISSPACE ch = false /\ (ch =? c_plus)%N = false /\
  (ch =? c_minus)%N = false /\ (ch =? c_underscore)%N = false /\
  (ch <? 128)%N = true.
Proof.
  intros H. apply is_digit_bounds in H.
  assert (E1 : (ch <=? 0x0D)%N = false) by (apply N.leb_gt; lia).
  assert (E2 : (ch =? c_space)%N = false) by (apply N.eqb_neq; unfold c_space; lia).
  assert (E3 : (ch =? c_plus)%N = false) by (apply N.eqb_neq; unfold c_plus; lia).
  assert (E4 : (ch =? c_minus)%N = false) by (apply N.eqb_neq; unfold c_minus; lia).
  assert (E5 : (ch =? c_underscore)%N = false)
    by (apply N.eqb_neq; unfold c_underscore; lia).
  assert (E6 : (ch <? 128)%N = true) by (apply N.ltb_lt; lia).
  unfold Py_ISSPACE, between.
  now rewrite E1, E2, E3, E4, E5, E6, andb_false_r.
Qed.

Lemma digits_are_ascii (p : str) :
  forallb is_digit p = true -> is_ascii p = true.
Proof.
  unfold is_ascii. induction p as [|ch rest IH]; simpl; [reflexivity|].
  intros H. apply andb_true_iff in H as [Hc Hr].
  destruct (digit_is_plain ch Hc) as (_ & _ & _ & _ & Ha).
  now rewrite Ha, IH.
Qed.

Lemma last_push (p : str) :
  forall ch prev : char, last (ch :: p) prev = last p ch.
Proof.
  induction p as [|k ks IH]; intros ch prev; [reflexivity|].
  change (last (ch :: k :: ks) prev) with (last (k :: ks) prev).
  now rewrite !IH.
Qed.

Lemma scan_digits_only (p : str) :
  forall prev digits acc,
    forallb is_digit p = true ->
    scan_digits prev digits acc p =
    Some (last p prev, (digits + len p)%nat,
          fold_left (fun a ch => (10 * a + digit_value ch)%Z) p acc, []).
Proof.
  induction p as [|ch rest IH]; intros prev digits acc H.
  - simpl. now rewrite Nat.add_0_r.
  - simpl in H. apply andb_true_iff in H as [Hc Hr].
    cbn [scan_digits]. rewrite Hc, (IH ch (S digits) _ Hr).
    cbn [len List.length fold_left].
    replace (S digits + len rest)%nat with (digits + S (len rest))%nat by lia.
    now rewrite last_push.
Qed.

Lemma last_digit (p : str) (ch : char) :
  forallb is_digit (ch :: p) = true -> is_digit (last (ch :: p) 0%N) = true.
Proof.
  revert ch. induction p as [|k ks IH]; intros ch H.
  - simpl in *. now rewrite andb_true_r in H.
  - change (last (ch :: k :: ks) 0%N) with (last (k :: ks) 0%N).
    apply IH. simpl in H. now apply andb_true_iff in H as [_ H].
Qed.

Lemma fold_digits_grows (p : str) :
  forall acc,
    forallb is_digit p = true -> (0 <= acc)%Z ->
    (acc <= fold_left (fun a ch => (10 * a + digit_value ch)%Z) p acc)%Z.
Proof.
  induction p as [|ch rest IH]; intros acc H Hacc; cbn [fold_left]; [lia|].
  cbn [forallb] in H. apply andb_true_iff in H as [Hc Hr].
  pose proof (digit_value_bounds ch Hc).
  specialize (IH (10 * acc + digit_value ch)%Z Hr). lia.
Qed.

(** Four digits or more without a leading zero are worth 1000 at least. *)
Lemma long_octet_is_large (octet : str) :
  purely_numeric octet = true -> has_leading_zero octet = false ->
  (4 <= len octet)%nat -> (1000 <= decimal_value octet)%Z.
Proof.
  destruct octet as [|d [|a [|b [|c rest]]]];
    cbn [len List.length]; try lia.
  intros Hnum Hlz _.
  unfold has_leading_zero in Hlz. cbn [len List.length Nat.ltb Nat.leb andb] in Hlz.
  apply N.eqb_neq in Hlz.
  cbn [purely_numeric forallb] in Hnum.
  repeat (apply andb_true_iff in Hnum as [?Hd Hnum]).
  unfold decimal_value. cbn [fold_left].
  pose proof (digit_value_bounds _ Hd).
  pose proof (digit_value_bounds _ Hd0).
  pose proof (digit_value_bounds _ Hd1).
  pose proof (digit_value_bounds _ Hd2).
  assert (1 <= digit_value d)%Z.
  { apply is_digit_bounds in Hd. unfold digit_value, c_zero in *. lia. }
  match goal with
  | |- (_ <= fold_left _ _ ?acc)%Z =>
      pose proof (fold_digits_grows rest acc Hnum)
  end.
  lia.
Qed.

(** ** The validator, step by step *)

Section Properties.

Variable rt : runtime.

Ltac break_match :=
  match goal with
  | |- context [match ?x with _ => _ end] => destruct x eqn:?
  | H : context [match ?x with _ => _ end] |- _ => destruct x eqn:?
  end.

(** [int] raises nothing but [ValueError]. *)
Lemma int_str_raises (s : str) (e : exn) :
  int_str rt s = Raises e -> e = ValueError.
Proof.
  unfold int_str, PyLong_FromString. intros H.
  repeat break_match; congruence.
Qed.

(** An iteration either returns [False] or lets the loop go on. *)
Lemma octet_body_cases (octet : str) :
  octet_body rt octet = Returns (Some false) \/
  octet_body rt octet = Returns None.
Proof.
  unfold octet_body, try_except_ValueError, bind.
  destruct octet as [|ch rest]; [now left|].
  destruct (has_leading_zero (ch :: rest)); [now left|].
  destruct (int_str rt (ch :: rest)) as [num|e] eqn:E.
  - destruct (in_range num); [now right | now left].
  - apply int_str_raises in E. subst e. now left.
Qed.

(** When the loop goes on: the three checks of the body passed. *)
Lemma octet_body_continues (octet : str) :
  octet_body rt octet = Returns None <->
  octet <> [] /\ has_leading_zero octet = false /\
  exists num, int_str rt octet = Returns num /\ in_range num = true.
Proof.
  unfold octet_body, try_except_ValueError, bind. split.
  - destruct octet as [|ch rest]; [discriminate|].
    destruct (has_leading_zero (ch :: rest)); [discriminate|].
    destruct (int_str rt (ch :: rest)) as [num|e] eqn:E.
    + destruct (in_range num) eqn:R; [|discriminate].
      intros _. repeat split; [discriminate|]. now exists num.
    + destruct e; discriminate.
  - intros (Hne & Hlz & num & Hint & Hr).
    destruct octet as [|ch rest]; [contradiction|].
    now rewrite Hlz, Hint, Hr.
Qed.

Lemma for_octets_bool (octets : list str) :
  exists b, for_octets rt octets = Returns b.
Proof.
  induction octets as [|octet rest IH]; cbn [for_octets].
  - now exists true.
  - destruct (octet_body_cases octet) as [E | E]; rewrite E; cbn [bind].
    + now exists false.
    + exact IH.
Qed.

Lemma for_octets_true (octets : list str) :
  for_octets rt octets = Returns true <->
  Forall (fun octet => octet_body rt octet = Returns None) octets.
Proof.
  induction octets as [|octet rest IH]; cbn [for_octets].
  - split; [constructor | reflexivity].
  - destruct (octet_body_cases octet) as [E | E]; rewrite E; cbn [bind].
    + split; [discriminate|]. intros H. inversion H; congruence.
    + rewrite IH. split; [now constructor | now inversion 1].
Qed.

(** [int] on a purely numeric segment: its decimal value, unless the
    digit limit of the interpreter is exceeded. *)
Lemma int_str_numeric (octet : str) :
  purely_numeric octet = true ->
  int_str rt octet =
  if (MAX_STR_DIGITS_THRESHOLD <? len octet)%nat
     && (0 <? max_str_digits rt)%nat
     && (max_str_digits rt <? len octet)%nat
  then Raises ValueError
  else Returns (decimal_value octet).
Proof.
  destruct octet as [|ch rest]; [discriminate|].
  cbn [purely_numeric]. intros Hall.
  unfold int_str, transform_decimal_and_space_to_ascii.
  rewrite (digits_are_ascii _ Hall).
  pose proof (last_digit rest ch Hall) as Hlast.
  cbn [forallb] in Hall. apply andb_true_iff in Hall as [Hc Hr].
  destruct (digit_is_plain ch Hc) as (Hsp & Hplus & Hminus & Hus & _).
  destruct (digit_is_plain _ Hlast) as (_ & _ & _ & Hlus & _).
  unfold PyLong_FromString. cbn [skip_spaces].
  rewrite Hsp, Hplus, Hminus, Hus.
  cbn [scan_digits]. rewrite Hc, (scan_digits_only rest _ _ _ Hr).
  rewrite <- (last_push rest ch 0%N), Hlus.
  cbn [len List.length Nat.eqb skip_spaces].
  unfold decimal_value. cbn [fold_left].
  replace (0 + S (List.length rest))%nat with (S (List.length rest)) by lia.
  replace (10 * 0 + digit_value ch)%Z with (0 + digit_value ch)%Z by lia.
  destruct (_ && _ && _); [reflexivity|].
  f_equal. rewrite Z.mul_1_l. f_equal.
Qed.

(** On a purely numeric segment without leading zero the body tests the
    range of the decimal value and nothing else. *)
Lemma octet_body_numeric (octet : str) :
  purely_numeric octet = true -> has_leading_zero octet = false ->
  (octet_body rt octet = Returns None <-> in_range (decimal_value octet) = true).
Proof.
  intros Hnum Hlz. rewrite octet_body_continues.
  rewrite (int_str_numeric octet Hnum).
  destruct (_ && _ && _) eqn:Hlimit.
  - split.
    + intros (_ & _ & num & H & _). discriminate.
    + intros Hr. exfalso.
      apply andb_true_iff in Hlimit as [Hlimit _].
      apply andb_true_iff in Hlimit as [Hlimit _].
      apply Nat.ltb_lt in Hlimit. unfold MAX_STR_DIGITS_THRESHOLD in Hlimit.
      assert (Hlen : (4 <= len octet)%nat) by lia.
      pose proof (long_octet_is_large octet Hnum Hlz Hlen).
      unfold in_range in Hr. apply andb_true_iff in Hr as [_ Hr].
      apply Z.leb_le in Hr. lia.
  - split.
    + intros (_ & _ & num & H & Hr). congruence.
    + intros Hr. repeat split; auto.
      * destruct octet; [discriminate | discriminate].
      * now exists (decimal_value octet).
Qed.

Lemma is_valid_ipv4_str (s : str) :
  is_valid_ipv4 rt (VStr s) =
  if (List.length (split c_dot (strip s)) =? 4)%nat
  then for_octets rt (split c_dot (strip s))
  else Returns false.
Proof.
  unfold is_valid_ipv4. now destruct (_ =? _)%nat.
Qed.

Lemma leading_zero_iff (octet : str) :
  has_leading_zero octet = true <->
  (1 < len octet)%nat /\ hd_error octet = Some c_zero.
Proof.
  unfold has_leading_zero. rewrite andb_true_iff, Nat.ltb_lt.
  destruct octet as [|ch rest]; cbn [hd_error].
  - split; intros [_ H]; discriminate.
  - rewrite N.eqb_eq. split; intros [H1 H2]; split; congruence.
Qed.

Lemma in_range_iff (num : Z) : in_range num = true <-> (0 <= num <= 255)%Z.
Proof. unfold in_range. rewrite andb_true_iff, !Z.leb_le. tauto. Qed.

(** The half of the grammar law that the code keeps: what the grammar
    allows is accepted. *)
Lemma grammar_is_accepted (s : str) :
  matches_grammar (strip s) = true -> is_valid_ipv4 rt (VStr s) = Returns true.
Proof.
  unfold matches_grammar. intros H. apply andb_true_iff in H as [Hlen Hall].
  rewrite is_valid_ipv4_str, Hlen. apply for_octets_true.
  rewrite forallb_forall in Hall. apply Forall_forall. intros octet Hin.
  specialize (Hall octet Hin). unfold grammar_octet in Hall.
  apply andb_true_iff in Hall as [Hall Hr].
  apply andb_true_iff in Hall as [Hnum Hlz].
  apply negb_true_iff in Hlz. now apply octet_body_numeric.
Qed.

(** ** The claims *)

(** C1: [is_valid_ipv4(s)] is true if and only if the trimmed string
    matches the dotted-decimal grammar (four segments, each non-empty, of
    decimal digits only, without leading zero, worth 0 to 255).  The code
    breaks the "only if": it answers true on ["1.2.3. 4"], which the
    grammar rejects and which the module's own table of examples expects
    to be false. *)
Theorem grammar_law_fails_on_inner_blank :
  is_valid_ipv4 rt (VStr (py "1.2.3. 4")) = Returns true /\
  matches_grammar (strip (py "1.2.3. 4")) = false.
Proof. split; vm_compute; reflexivity. Qed.

(** C2: a segment with a character outside [0-9] forces false, in
    particular on ["1.2.3. 4"].  The code answers true there: the segment
    [" 4"] holds a blank, and [int] reads it as 4. *)
Theorem non_digit_segment_is_accepted :
  existsb has_non_digit (split c_dot (strip (py "1.2.3. 4"))) = true /\
  int_str rt (py " 4") = Returns 4%Z /\
  is_valid_ipv4 rt (VStr (py "1.2.3. 4")) = Returns true.
Proof. repeat split; vm_compute; reflexivity. Qed.

(** C3, the range law: when the trimmed string splits on the dot into
    exactly four purely numeric segments without leading zeros, the result
    is a boolean that is true if and only if the decimal value of every
    segment lies in [0,255]; ["255.255.255.255"] is accepted and
    ["256.0.0.0"] is rejected. *)
Theorem range_law :
  (forall s : str,
      let octets := split c_dot (strip s) in
      List.length octets = 4%nat ->
      Forall (fun octet => purely_numeric octet = true /\
                           has_leading_zero octet = false) octets ->
      exists b : bool,
        is_valid_ipv4 rt (VStr s) = Returns b /\
        (b = true <->
         Forall (fun octet => (0 <= decimal_value octet <= 255)%Z) octets)) /\
  is_valid_ipv4 rt (VStr (py "255.255.255.255")) = Returns true /\
  is_valid_ipv4 rt (VStr (py "256.0.0.0")) = Returns false.
Proof.
  split; [|split; vm_compute; reflexivity].
  intros s octets Hlen Hwf.
  rewrite is_valid_ipv4_str. fold octets.
  apply Nat.eqb_eq in Hlen. rewrite Hlen.
  destruct (for_octets_bool octets) as [b Hb]. exists b. split; [exact Hb|].
  assert (Hstep : Forall (fun octet => octet_body rt octet = Returns None) octets
                  <-> Forall (fun octet => (0 <= decimal_value octet <= 255)%Z) octets).
  { rewrite !Forall_forall in *. split; intros H octet Hin.
    - destruct (Hwf octet Hin) as [Hnum Hlz].
      apply in_range_iff, (octet_body_numeric octet Hnum Hlz), H, Hin.
    - destruct (Hwf octet Hin) as [Hnum Hlz].
      apply (octet_body_numeric octet Hnum Hlz), in_range_iff, H, Hin. }
  rewrite <- Hstep, <- for_octets_true, Hb.
  split; congruence.
Qed.

(** C4: on every input that is not a string (None, booleans, integers,
    lists, dictionaries) the function raises [TypeError] and returns no
    boolean. *)
Theorem non_string_raises_TypeError (v : value) :
  isinstance_str v = false ->
  is_valid_ipv4 rt v = Raises (TypeError "Input 'ip_address' must be a string.") /\
  forall b : bool, is_valid_ipv4 rt v <> Returns b.
Proof.
  destruct v; cbn [isinstance_str]; intros H; try discriminate;
    (split; [reflexivity | intros verdict; discriminate]).
Qed.

(** C5: on every string the function ends with a boolean and lets no
    exception out, malformed segments, non-digit characters, out-of-range
    values and wrong segment counts all giving false.  The code does return
    a boolean on every string, and it answers false on a wrong count, on an
    empty segment, on a leading zero, on a segment [int] cannot convert and
    on a value outside [0,255].  A non-digit character, though, does not
    always give false: ["1.2.3. 4"], which the module's own table of
    examples expects to be false, gives true. *)
Theorem string_input_folds_to_bool :
  (forall s : str, exists b : bool, is_valid_ipv4 rt (VStr s) = Returns b) /\
  (forall s : str,
      let octets := split c_dot (strip s) in
      List.length octets <> 4%nat \/
      Exists (fun octet =>
                octet = [] \/
                ((1 < len octet)%nat /\ hd_error octet = Some c_zero) \/
                int_str rt octet = Raises ValueError \/
                exists num : Z,
                  int_str rt octet = Returns num /\ ~ (0 <= num <= 255)%Z)
             octets ->
      is_valid_ipv4 rt (VStr s) = Returns false) /\
  (existsb has_non_digit (split c_dot (strip (py "1.2.3. 4"))) = true /\
   is_valid_ipv4 rt (VStr (py "1.2.3. 4")) = Returns true).
Proof.
  split; [|split; [|split; vm_compute; reflexivity]].
  - intros s. rewrite is_valid_ipv4_str. destruct (_ =? _)%nat.
    + apply for_octets_bool.
    + now exists false.
  - intros s octets H. rewrite is_valid_ipv4_str. fold octets.
    destruct (List.length octets =? 4)%nat eqn:Hlen; [|reflexivity].
    destruct H as [H | H]; [now apply Nat.eqb_eq in Hlen|].
    destruct (for_octets_bool octets) as [[|] Hb]; [exfalso | exact Hb].
    apply for_octets_true in Hb. rewrite Forall_forall in Hb.
    apply Exists_exists in H as (octet & Hin & Hbad).
    apply Hb, octet_body_continues in Hin.
    destruct Hin as (Hne & Hlz & num & Hint & Hr).
    destruct Hbad as [E | [Hz | [Hraise | (n & Hn & Hout)]]].
    + contradiction.
    + apply leading_zero_iff in Hz. congruence.
    + congruence.
    + apply in_range_iff in Hr. assert (n = num) by congruence. now subst n.
Qed.

(** C6, the segment-count law: when the trimmed string does not split on
    the dot into exactly four segments the result is false; so it is on
    the empty string and on every string of blanks only. *)
Theorem segment_count_law :
  (forall s : str,
      List.length (split c_dot (strip s)) <> 4%nat ->
      is_valid_ipv4 rt (VStr s) = Returns false) /\
  is_valid_ipv4 rt (VStr (py "")) = Returns false /\
  (forall s : str,
      forallb Py_UNICODE_ISSPACE s = true ->
      is_valid_ipv4 rt (VStr s) = Returns false).
Proof.
  repeat split.
  - intros s H. rewrite is_valid_ipv4_str.
    apply Nat.eqb_neq in H. now rewrite H.
  - intros s H. rewrite is_valid_ipv4_str, (strip_blank s H). reflexivity.
Qed.

(** C7, the leading-zero law: a segment longer than one character that
    begins with ['0'] forces false, whatever its value; the segment ["0"]
    itself passes; ["192.168.01.1"] is rejected. *)
Theorem leading_zero_law :
  (forall s : str,
      Exists (fun octet => (1 < len octet)%nat /\ hd_error octet = Some c_zero)
             (split c_dot (strip s)) ->
      is_valid_ipv4 rt (VStr s) = Returns false) /\
  octet_body rt (py "0") = Returns None /\
  is_valid_ipv4 rt (VStr (py "0.0.0.0")) = Returns true /\
  is_valid_ipv4 rt (VStr (py "192.168.01.1")) = Returns false.
Proof.
  split; [|repeat split; vm_compute; reflexivity].
  intros s H. rewrite is_valid_ipv4_str.
  destruct (_ =? _)%nat; [|reflexivity].
  destruct (for_octets_bool (split c_dot (strip s))) as [[|] Hb];
    [exfalso | exact Hb].
  apply for_octets_true in Hb. rewrite Forall_forall in Hb.
  apply Exists_exists in H as (octet & Hin & Hlz).
  apply leading_zero_iff in Hlz.
  apply Hb, octet_body_continues in Hin. destruct Hin as (_ & Hno & _).
  congruence.
Qed.

(** C8, idempotence under trim: the verdict on [s] is the verdict on
    [s.strip()]; ["  192.168.1.1  "] is accepted. *)
Theorem trim_idempotence :
  (forall s : str, is_valid_ipv4 rt (VStr s) = is_valid_ipv4 rt (VStr (strip s))) /\
  is_valid_ipv4 rt (VStr (py "  192.168.1.1  ")) = Returns true.
Proof.
  split; [|vm_compute; reflexivity].
  intros s. now rewrite !is_valid_ipv4_str, strip_idem.
Qed.

(** C9: there are accepted strings whose segments hold characters other
    than decimal digits, because [int] allows a sign, blanks around the
    number and single underscores between digits: ["+1.2.3.4"],
    ["-0.0.0.0"], ["1_0.2.3.4"] and ["1.2.3. 4"] all give true. *)
Theorem int_leniency_is_accepted :
  Forall (fun s => existsb has_non_digit (split c_dot (strip s)) = true /\
                   is_valid_ipv4 rt (VStr s) = Returns true)
         [py "+1.2.3.4"; py "-0.0.0.0"; py "1_0.2.3.4"; py "1.2.3. 4"] /\
  int_str rt (py "+1") = Returns 1%Z /\
  int_str rt (py "-0") = Returns 0%Z /\
  int_str rt (py "1_0") = Returns 10%Z /\
  int_str rt (py " 4") = Returns 4%Z.
Proof.
  split; [repeat constructor; vm_compute; reflexivity|].
  repeat split; vm_compute; reflexivity.
Qed.

(** C10, soundness of acceptance: when the function returns true, the
    trimmed string splits on the dot into exactly four segments, each of
    them non-empty, none longer than one character with a first character
    ['0'], and each read by [int] as a number in [0,255]. *)
Theorem acceptance_is_sound (s : str) :
  is_valid_ipv4 rt (VStr s) = Returns true ->
  let octets := split c_dot (strip s) in
  List.length octets = 4%nat /\
  Forall (fun octet =>
            octet <> [] /\
            ~ ((1 < len octet)%nat /\ hd_error octet = Some c_zero) /\
            exists num : Z,
              int_str rt octet = Returns num /\ (0 <= num <= 255)%Z)
         octets.
Proof.
  intros H octets. rewrite is_valid_ipv4_str in H. fold octets in H.
  destruct (List.length octets =? 4)%nat eqn:Hlen; [|discriminate].
  split; [now apply Nat.eqb_eq|].
  apply for_octets_true in H. rewrite Forall_forall in *.
  intros octet Hin. apply H, octet_body_continues in Hin.
  destruct Hin as (Hne & Hlz & num & Hint & Hr).
  repeat split.
  - exact Hne.
  - rewrite <- leading_zero_iff. congruence.
  - exists num. split; [exact Hint | now apply in_range_iff].
Qed.

End Properties.

(** ** The laws at work on CPython 3.11 *)

Lemma range_law_witness :
  exists b : bool,
    is_valid_ipv4 cpython311 (VStr (py "255.255.255.255")) = Returns b /\
    (b = true <->
     Forall (fun octet => (0 <= decimal_value octet <= 255)%Z)
            (split c_dot (strip (py "255.255.255.255")))).
Proof.
  apply (proj1 (range_law cpython311) (py "255.255.255.255")).
  - reflexivity.
  - repeat constructor.
Defined.

Lemma non_string_raises_TypeError_witness :
  is_valid_ipv4 cpython311 VNone =
    Raises (TypeError "Input 'ip_address' must be a string.") /\
  forall b : bool, is_valid_ipv4 cpython311 VNone <> Returns b.
Proof.
  apply (non_string_raises_TypeError cpython311 VNone). reflexivity.
Defined.

Lemma string_input_folds_to_bool_witness :
  is_valid_ipv4 cpython311 (VStr (py "abc.def.ghi.jkl")) = Returns false.
Proof.
  apply (proj1 (proj2 (string_input_folds_to_bool cpython311))
               (py "abc.def.ghi.jkl")).
  right. apply Exists_cons_hd. right. right. left. reflexivity.
Defined.

Lemma segment_count_law_witness :
  is_valid_ipv4 cpython311 (VStr (py "192.168.1")) = Returns false.
Proof.
  apply (proj1 (segment_count_law cpython311) (py "192.168.1")).
  vm_compute. discriminate.
Defined.

Lemma leading_zero_law_witness :
  is_valid_ipv4 cpython311 (VStr (py "10.007.0.1")) = Returns false.
Proof.
  apply (proj1 (leading_zero_law cpython311) (py "10.007.0.1")).
  apply Exists_cons_tl, Exists_cons_hd. split; [vm_compute; lia | reflexivity].
Defined.

Lemma acceptance_is_sound_witness :
  let octets := split c_dot (strip (py " 192.168.1.1")) in
  List.length octets = 4%nat /\
  Forall (fun octet =>
            octet <> [] /\
            ~ ((1 < len octet)%nat /\ hd_error octet = Some c_zero) /\
            exists num : Z,
              int_str cpython311 octet = Returns num /\ (0 <= num <= 255)%Z)
         octets.
Proof.
  apply (acceptance_is_sound cpython311 (py " 192.168.1.1")).
  vm_compute. reflexivity.
Defined.

(** ** More on [strip] *)

Lemma lstrip_prefix (s : str) :
  exists ws, s = ws ++ lstrip s /\ forallb Py_UNICODE_ISSPACE ws = true.
Proof.
  induction s as [|ch rest (ws & E & Hws)]; cbn [lstrip].
  - now exists [].
  - destruct (Py_UNICODE_ISSPACE ch) eqn:Hc.
    + exists (ch :: ws). cbn [app forallb]. now rewrite Hc, Hws, <- E.
    + now exists [].
Qed.

Lemma rstrip_suffix (s : str) :
  exists ws, s = rstrip s ++ ws /\ forallb Py_UNICODE_ISSPACE ws = true.
Proof.
  induction s as [|ch rest (ws & E & Hws)]; cbn [rstrip].
  - now exists [].
  - destruct (rstrip rest) as [|k ks].
    + destruct (Py_UNICODE_ISSPACE ch) eqn:Hc.
      * exists (ch :: ws). cbn [app forallb] in *. subst rest. now rewrite Hc, Hws.
      * exists ws. cbn [app] in *. now subst rest.
    + exists ws. cbn [app] in *. now subst rest.
Qed.

Lemma rstrip_last (s : str) :
  rstrip s = [] \/ Py_UNICODE_ISSPACE (last (rstrip s) 0%N) = false.
Proof.
  induction s as [|ch rest IH]; cbn [rstrip]; [now left|].
  destruct (rstrip rest) as [|k ks].
  - destruct (Py_UNICODE_ISSPACE ch) eqn:Hc; [now left | now right].
  - right. destruct IH as [IH | IH]; [discriminate|].
    change (last (ch :: k :: ks) 0%N) with (last (k :: ks) 0%N). exact IH.
Qed.

Lemma rstrip_blank (ws : str) :
  forallb Py_UNICODE_ISSPACE ws = true -> rstrip ws = [].
Proof.
  induction ws as [|ch rest IH]; cbn [rstrip forallb]; [reflexivity|].
  intros H. apply andb_true_iff in H as [Hc Hr]. now rewrite (IH Hr), Hc.
Qed.

Lemma lstrip_app_blank (ws s : str) :
  forallb Py_UNICODE_ISSPACE ws = true -> lstrip (ws ++ s) = lstrip s.
Proof.
  induction ws as [|ch rest IH]; cbn [app lstrip forallb]; [reflexivity|].
  intros H. apply andb_true_iff in H as [Hc Hr]. now rewrite Hc, IH.
Qed.

Lemma rstrip_app_blank (s ws : str) :
  forallb Py_UNICODE_ISSPACE ws = true -> rstrip (s ++ ws) = rstrip s.
Proof.
  intros H. induction s as [|ch rest IH]; cbn [app rstrip].
  - now apply rstrip_blank.
  - now rewrite IH.
Qed.

Lemma lstrip_nil (s : str) :
  lstrip s = [] -> forallb Py_UNICODE_ISSPACE s = true.
Proof.
  induction s as [|ch rest IH]; cbn [lstrip forallb]; [reflexivity|].
  destruct (Py_UNICODE_ISSPACE ch); [exact IH | discriminate].
Qed.

Lemma lstrip_app (s t : str) :
  lstrip s <> [] -> lstrip (s ++ t) = lstrip s ++ t.
Proof.
  induction s as [|ch rest IH]; cbn [app lstrip]; [contradiction|].
  destruct (Py_UNICODE_ISSPACE ch); [exact IH | reflexivity].
Qed.

Lemma strip_padding (ws1 s ws2 : str) :
  forallb Py_UNICODE_ISSPACE ws1 = true ->
  forallb Py_UNICODE_ISSPACE ws2 = true ->
  strip (ws1 ++ s ++ ws2) = strip s.
Proof.
  intros H1 H2. unfold strip. rewrite (lstrip_app_blank ws1 _ H1).
  destruct (lstrip s) as [|ch rest] eqn:E.
  - apply lstrip_nil in E.
    rewrite lstrip_blank; [reflexivity|].
    now rewrite forallb_app, E, H2.
  - rewrite lstrip_app, E by (rewrite E; discriminate).
    now apply rstrip_app_blank.
Qed.

(** ** More on [split] *)

Lemma split_nonempty (sep : char) (s : str) : split sep s <> [].
Proof.
  destruct s as [|ch rest]; cbn [split]; [discriminate|].
  destruct (ch =? sep)%N; [discriminate|].
  destruct (split sep rest); discriminate.
Qed.

Lemma split_app (sep : char) (a b : str) :
  split sep (a ++ sep :: b) = split sep a ++ split sep b.
Proof.
  induction a as [|ch rest IH]; cbn [app split].
  - now rewrite N.eqb_refl.
  - rewrite IH. destruct (ch =? sep)%N; [reflexivity|].
    destruct (split sep rest) as [|piece pieces] eqn:E; [|reflexivity].
    now apply split_nonempty in E.
Qed.

Lemma split_without_sep (sep : char) (piece : str) :
  ~ In sep piece -> split sep piece = [piece].
Proof.
  induction piece as [|ch rest IH]; cbn [split]; [reflexivity|].
  intros H. destruct (ch =? sep)%N eqn:E.
  - apply N.eqb_eq in E. subst ch. exfalso. apply H. now left.
  - rewrite IH; [reflexivity|]. intros Hin. apply H. now right.
Qed.

Lemma join_push (sep ch : char) (piece : str) (pieces : list str) :
  join sep ((ch :: piece) :: pieces) = ch :: join sep (piece :: pieces).
Proof. cbn [join]. now destruct pieces. Qed.

Lemma split_pieces_free (sep : char) (s : str) :
  Forall (fun piece => ~ In sep piece) (split sep s).
Proof.
  induction s as [|ch rest IH]; cbn [split].
  - constructor; [intros [] | constructor].
  - destruct (ch =? sep)%N eqn:E.
    + constructor; [intros [] | exact IH].
    + destruct (split sep rest) as [|piece pieces].
      * constructor; [|constructor].
        intros [H | []]. subst ch. now rewrite N.eqb_refl in E.
      * inversion IH as [|? ? Hp Hps]; subst. constructor; [|exact Hps].
        intros [H | H]; [|now apply Hp].
        subst ch. now rewrite N.eqb_refl in E.
Qed.

Lemma split_count (sep : char) (s : str) :
  List.length (split sep s) = S (count sep s).
Proof.
  unfold count. induction s as [|ch rest IH]; cbn [split count_occ]; [reflexivity|].
  destruct (N.eq_dec ch sep) as [E | E].
  - subst ch. rewrite N.eqb_refl. cbn [List.length]. now rewrite IH.
  - apply N.eqb_neq in E. rewrite E.
    destruct (split sep rest) as [|piece pieces]; [discriminate|].
    exact IH.
Qed.

Lemma split_lengths (sep : char) (s : str) :
  S (len s) = list_sum (map (fun piece => S (len piece)) (split sep s)).
Proof.
  unfold len. induction s as [|ch rest IH]; cbn [split]; [reflexivity|].
  destruct (ch =? sep)%N.
  - simpl in *. lia.
  - destruct (split sep rest) as [|piece pieces]; simpl in *; lia.
Qed.

(** ** Further properties of the built-ins *)

(** [strip] removes blanks at both ends and nothing else: the string is
    its stripped form between two runs of blanks, and the stripped form,
    unless empty, neither begins nor ends with a blank. *)
Theorem strip_decomposition (s : str) :
  exists ws1 ws2 : str,
    s = ws1 ++ strip s ++ ws2 /\
    forallb Py_UNICODE_ISSPACE ws1 = true /\
    forallb Py_UNICODE_ISSPACE ws2 = true /\
    (strip s = [] \/
     Py_UNICODE_ISSPACE (hd 0%N (strip s)) = false /\
     Py_UNICODE_ISSPACE (last (strip s) 0%N) = false).
Proof.
  destruct (lstrip_prefix s) as (ws1 & E1 & H1).
  destruct (rstrip_suffix (lstrip s)) as (ws2 & E2 & H2).
  exists ws1, ws2. unfold strip. repeat split; try assumption.
  - now rewrite <- E2.
  - destruct (lstrip_head s) as [E | (ch & rest & E & Hc)].
    + left. now rewrite E.
    + right. split.
      * now rewrite E, (rstrip_keeps ch rest Hc).
      * destruct (rstrip_last (lstrip s)) as [Hn | Hl]; [|exact Hl].
        rewrite E, (rstrip_keeps ch rest Hc) in Hn. discriminate.
Qed.

Lemma join_of_split (sep : char) (s : str) : join sep (split sep s) = s.
Proof.
  induction s as [|ch rest IH]; cbn [split]; [reflexivity|].
  destruct (ch =? sep)%N eqn:E.
  - apply N.eqb_eq in E. subst ch. cbn [join].
    destruct (split sep rest) as [|piece pieces] eqn:Es.
    + now apply split_nonempty in Es.
    + cbn [app]. now rewrite IH.
  - destruct (split sep rest) as [|piece pieces] eqn:Es.
    + now apply split_nonempty in Es.
    + now rewrite join_push, IH.
Qed.

(** Joining the pieces of [split] with the separator gives the string
    back, and no piece holds the separator. *)
Theorem join_split (sep : char) (s : str) :
  join sep (split sep s) = s /\
  Forall (fun piece => ~ In sep piece) (split sep s).
Proof. split; [apply join_of_split | apply split_pieces_free]. Qed.

(** Splitting what was joined gives the pieces back, when there is at
    least one piece and none holds the separator. *)
Theorem split_join (sep : char) (pieces : list str) :
  pieces <> [] ->
  Forall (fun piece => ~ In sep piece) pieces ->
  split sep (join sep pieces) = pieces.
Proof.
  induction pieces as [|piece rest IH]; [contradiction|].
  intros _ H. inversion H as [|? ? Hp Hr]; subst.
  cbn [join]. destruct rest as [|next rest].
  - now apply split_without_sep.
  - rewrite split_app, (split_without_sep sep piece Hp), IH;
      [reflexivity | discriminate | exact Hr].
Qed.

(** ** Further properties of the validator *)

Section MoreProperties.

Variable rt : runtime.

Lemma empty_segment_rejected (s : str) :
  In [] (split c_dot (strip s)) -> is_valid_ipv4 rt (VStr s) = Returns false.
Proof.
  intros H. rewrite is_valid_ipv4_str.
  destruct (_ =? _)%nat; [|reflexivity].
  destruct (for_octets_bool rt (split c_dot (strip s))) as [[|] Hb];
    [exfalso | exact Hb].
  apply for_octets_true in Hb. rewrite Forall_forall in Hb.
  apply Hb, octet_body_continues in H. destruct H as (Hne & _).
  now apply Hne.
Qed.

(** A dot at the start or at the end of the trimmed string, or two dots
    in a row, leave an empty octet, and the answer is false. *)
Theorem dot_placement_law (s a b : str) :
  strip s = c_dot :: b \/ strip s = a ++ [c_dot] \/
  strip s = a ++ c_dot :: c_dot :: b ->
  is_valid_ipv4 rt (VStr s) = Returns false.
Proof.
  intros H. apply empty_segment_rejected.
  destruct H as [E | [E | E]]; rewrite E.
  - cbn [split]. rewrite N.eqb_refl. now left.
  - rewrite split_app. apply in_or_app. right. now left.
  - rewrite split_app. apply in_or_app. right.
    cbn [split]. rewrite N.eqb_refl. now left.
Qed.

Lemma verdict_on_string (s : str) :
  exists b : bool, is_valid_ipv4 rt (VStr s) = Returns b.
Proof.
  rewrite is_valid_ipv4_str. destruct (_ =? _)%nat.
  - apply for_octets_bool.
  - now exists false.
Qed.

Lemma accepted_octets (s : str) :
  is_valid_ipv4 rt (VStr s) = Returns true ->
  List.length (split c_dot (strip s)) = 4%nat /\
  Forall (fun octet => octet_body rt octet = Returns None)
         (split c_dot (strip s)).
Proof.
  rewrite is_valid_ipv4_str.
  destruct (_ =? _)%nat eqn:Hlen; [|discriminate].
  intros H. split; [now apply Nat.eqb_eq | now apply for_octets_true].
Qed.

(** An accepted string, once trimmed, holds exactly three dots and seven
    characters at least. *)
Theorem accepted_shape (s : str) :
  is_valid_ipv4 rt (VStr s) = Returns true ->
  count c_dot (strip s) = 3%nat /\ (7 <= len (strip s))%nat.
Proof.
  intros H. destruct (accepted_octets s H) as [Hlen Hall].
  pose proof (split_count c_dot (strip s)) as Hc.
  pose proof (split_lengths c_dot (strip s)) as Hs.
  split; [lia|].
  destruct (split c_dot (strip s)) as [|o1 [|o2 [|o3 [|o4 [|o5 rest]]]]];
    try discriminate.
  assert (Hpos : forall o, In o [o1; o2; o3; o4] -> (1 <= len o)%nat).
  { intros o Hin. rewrite Forall_forall in Hall.
    apply Hall, octet_body_continues in Hin. destruct Hin as (Hne & _).
    destruct o; [contradiction | cbn; lia]. }
  pose proof (Hpos o1 ltac:(cbn; tauto)).
  pose proof (Hpos o2 ltac:(cbn; tauto)).
  pose proof (Hpos o3 ltac:(cbn; tauto)).
  pose proof (Hpos o4 ltac:(cbn; tauto)).
  cbn [map list_sum fold_right] in Hs. lia.
Qed.

(** Blanks around a string never change the verdict. *)
Theorem padding_is_ignored (ws1 s ws2 : str) :
  forallb Py_UNICODE_ISSPACE ws1 = true ->
  forallb Py_UNICODE_ISSPACE ws2 = true ->
  is_valid_ipv4 rt (VStr (ws1 ++ s ++ ws2)) = is_valid_ipv4 rt (VStr s).
Proof.
  intros H1 H2. now rewrite !is_valid_ipv4_str, (strip_padding ws1 s ws2 H1 H2).
Qed.

(** The exact condition of acceptance: four segments after trimming and
    splitting on the dot, each of them non-empty, without a leading zero
    in front of further characters, and read by [int] as a number from 0
    to 255. *)
Theorem acceptance_condition (s : str) :
  is_valid_ipv4 rt (VStr s) = Returns true <->
  List.length (split c_dot (strip s)) = 4%nat /\
  Forall (fun octet =>
            octet <> [] /\ has_leading_zero octet = false /\
            exists num : Z,
              int_str rt octet = Returns num /\ (0 <= num <= 255)%Z)
         (split c_dot (strip s)).
Proof.
  split.
  - intros H. destruct (accepted_octets s H) as [Hlen Hall].
    split; [exact Hlen|]. rewrite Forall_forall in *.
    intros octet Hin. apply Hall, octet_body_continues in Hin.
    destruct Hin as (Hne & Hlz & num & Hint & Hr).
    repeat split; try assumption.
    exists num. split; [exact Hint | now apply in_range_iff].
  - intros [Hlen Hall]. rewrite is_valid_ipv4_str.
    apply Nat.eqb_eq in Hlen. rewrite Hlen. apply for_octets_true.
    rewrite Forall_forall in *. intros octet Hin.
    destruct (Hall octet Hin) as (Hne & Hlz & num & Hint & Hr).
    apply octet_body_continues. repeat split; try assumption.
    exists num. split; [exact Hint | now apply in_range_iff].
Qed.

(** *** Characters [int] cannot read *)

Lemma skip_spaces_foreign (p : str) :
  Exists (fun ch => int_plain ch = false) p ->
  Exists (fun ch => int_plain ch = false) (skip_spaces p).
Proof.
  induction p as [|ch rest IH]; cbn [skip_spaces]; intros H; [exact H|].
  destruct (Py_ISSPACE ch) eqn:Hsp; [|exact H].
  apply IH. inversion H as [? ? Hc | ? ? Hr]; subst; [|exact Hr].
  unfold int_plain in Hc. rewrite Hsp, orb_true_r in Hc. discriminate.
Qed.

Lemma scan_digits_foreign (p : str) :
  forall prev digits acc prev' digits' acc' rest,
    Exists (fun ch => int_plain ch = false) p ->
    scan_digits prev digits acc p = Some (prev', digits', acc', rest) ->
    Exists (fun ch => int_plain ch = false) rest.
Proof.
  induction p as [|ch tail IH]; intros prev digits acc prev' digits' acc' rest H;
    [inversion H|].
  cbn [scan_digits].
  assert (Htail : is_digit ch = true \/ (ch =? c_underscore)%N = true ->
                  Exists (fun ch => int_plain ch = false) tail).
  { intros Hplain. inversion H as [? ? Hc | ? ? Hr]; subst; [|exact Hr].
    unfold int_plain in Hc.
    destruct Hplain as [Hd | Hu]; rewrite ?Hd, ?Hu, ?orb_true_r in Hc;
      discriminate. }
  destruct (is_digit ch) eqn:Hd; [apply IH; auto|].
  destruct (ch =? c_underscore)%N eqn:Hu.
  - destruct (prev =? c_underscore)%N; [discriminate | apply IH; auto].
  - intros E. injection E as _ _ _ E. now subst rest.
Qed.

Lemma PyLong_FromString_foreign (p : str) :
  Exists (fun ch => int_plain ch = false) p ->
  PyLong_FromString rt p = Raises ValueError.
Proof.
  intros H. apply skip_spaces_foreign in H. unfold PyLong_FromString.
  destruct (skip_spaces p) as [|ch rest]; [reflexivity|].
  assert (Hsigned : (ch =? c_plus)%N = true \/ (ch =? c_minus)%N = true ->
                    Exists (fun ch => int_plain ch = false) rest).
  { intros Hs. inversion H as [? ? Hc | ? ? Hr]; subst; [|exact Hr].
    unfold int_plain in Hc.
    destruct Hs as [Hs | Hs]; rewrite Hs, ?orb_true_r in Hc; discriminate. }
  assert (Hscan : forall (sign : Z) (q : str),
             Exists (fun ch => int_plain ch = false) q ->
             match q with
             | [] => Raises ValueError
             | ch0 :: _ =>
                 if (ch0 =? c_underscore)%N then Raises ValueError
                 else
                   match scan_digits 0%N 0 0%Z q with
                   | None => Raises ValueError
                   | Some (prev, digits, acc, rest0) =>
                       if (prev =? c_underscore)%N then Raises ValueError
                       else if (len rest0 =? len q)%nat then Raises ValueError
                       else match skip_spaces rest0 with
                            | _ :: _ => Raises ValueError
                            | [] =>
                                if (MAX_STR_DIGITS_THRESHOLD <? digits)%nat
                                   && (0 <? max_str_digits rt)%nat
                                   && (max_str_digits rt <? digits)%nat
                                then Raises ValueError
                                else Returns (sign * acc)%Z
                            end
                   end
             end = Raises ValueError).
  { intros sign q Hq. destruct q as [|ch0 q0]; [reflexivity|].
    destruct (ch0 =? c_underscore)%N; [reflexivity|].
    destruct (scan_digits 0%N 0 0%Z (ch0 :: q0))
      as [[[[prev digits] acc] rest0]|] eqn:Es; [|reflexivity].
    destruct (prev =? c_underscore)%N; [reflexivity|].
    destruct (len rest0 =? len (ch0 :: q0))%nat; [reflexivity|].
    apply (scan_digits_foreign _ _ _ _ _ _ _ _ Hq), skip_spaces_foreign in Es.
    destruct (skip_spaces rest0); [inversion Es | reflexivity]. }
  destruct (ch =? c_plus)%N;
    [exact (Hscan 1%Z rest (Hsigned (or_introl eq_refl)))|].
  destruct (ch =? c_minus)%N;
    [exact (Hscan (-1)%Z rest (Hsigned (or_intror eq_refl)))|].
  exact (Hscan 1%Z (ch :: rest) H).
Qed.

Lemma transform_foreign (octet : str) :
  Exists (fun ch => ((ch < 127)%N \/ ch = 127%N /\ todecimal rt 127%N = None)
                    /\ int_plain ch = false) octet ->
  Exists (fun ch => int_plain ch = false)
         (transform_decimal_and_space_to_ascii rt octet).
Proof.
  intros H. unfold transform_decimal_and_space_to_ascii.
  destruct (is_ascii octet).
  - revert H. apply Exists_impl. now intros ch [_ Hc].
  - induction octet as [|ch rest IH]; [inversion H|].
    cbn [transform_loop].
    destruct (ch <? 127)%N eqn:Hlt.
    + inversion H as [? ? [_ Hc] | ? ? Hr]; subst.
      * now apply Exists_cons_hd.
      * now apply Exists_cons_tl, IH.
    + apply N.ltb_ge in Hlt.
      inversion H as [? ? [[Hc | [Hc Hdel]] _] | ? ? Hr]; subst.
      * lia.
      * change (Py_UNICODE_ISSPACE 127%N) with false. cbv iota.
        rewrite Hdel. now apply Exists_cons_hd.
      * destruct (Py_UNICODE_ISSPACE ch); [now apply Exists_cons_tl, IH|].
        destruct (todecimal rt ch); [now apply Exists_cons_tl, IH|].
        now apply Exists_cons_hd.
Qed.

Lemma in_join (sep ch : char) (pieces : list str) :
  In ch (join sep pieces) -> ch <> sep ->
  exists piece, In piece pieces /\ In ch piece.
Proof.
  intros H Hne. induction pieces as [|piece rest IH]; [contradiction|].
  cbn [join] in H. destruct rest as [|next rest].
  - exists piece. split; [now left | exact H].
  - apply in_app_or in H as [H | [H | H]].
    + exists piece. split; [now left | exact H].
    + now subst.
    + destruct (IH H) as (q & Hq & Hin). exists q. split; [now right | exact Hin].
Qed.

(** An ASCII character in the trimmed string that is neither the dot, a
    digit, a sign, an underscore nor a blank of the C locale (a letter,
    say) makes the answer false.  For DEL, the last ASCII character, the
    conversion of [int] looks it up in the table of decimal digits when the
    segment also holds a character that is not ASCII, so the table must have
    no entry for it, as is the case in every version of Unicode. *)
Theorem foreign_character_rejected (s : str) (ch : char) :
  In ch (strip s) ->
  (ch < 127)%N \/ ch = 127%N /\ todecimal rt 127%N = None ->
  ch <> c_dot -> int_plain ch = false ->
  is_valid_ipv4 rt (VStr s) = Returns false.
Proof.
  intros Hin Hascii Hdot Hplain.
  destruct (verdict_on_string s) as [[|] Hb]; [exfalso | exact Hb].
  destruct (accepted_octets s Hb) as [_ Hall]. rewrite Forall_forall in Hall.
  rewrite <- (join_of_split c_dot (strip s)) in Hin.
  destruct (in_join c_dot ch _ Hin Hdot) as (octet & Hoctet & Hch).
  apply Hall, octet_body_continues in Hoctet.
  destruct Hoctet as (_ & _ & num & Hint & _).
  unfold int_str in Hint. rewrite PyLong_FromString_foreign in Hint;
    [discriminate|].
  apply transform_foreign, Exists_exists. now exists ch.
Qed.

(** *** Signed segments *)

(** [int] on a sign followed by digits only, below the threshold of the
    digit limit. *)
Lemma int_str_signed (sg : char) (d : str) :
  sg = c_plus \/ sg = c_minus ->
  purely_numeric d = true ->
  (len d <= MAX_STR_DIGITS_THRESHOLD)%nat ->
  int_str rt (sg :: d) =
  Returns ((if (sg =? c_minus)%N then -1 else 1) * decimal_value d)%Z.
Proof.
  intros Hsg Hnum Hlen.
  destruct d as [|ch rest]; [discriminate|].
  cbn [purely_numeric] in Hnum.
  pose proof (digits_are_ascii _ Hnum) as Hascii.
  pose proof (last_digit rest ch Hnum) as Hlast.
  cbn [forallb] in Hnum. apply andb_true_iff in Hnum as [Hc Hr].
  destruct (digit_is_plain ch Hc) as (_ & _ & _ & Hus & _).
  destruct (digit_is_plain _ Hlast) as (_ & _ & _ & Hlus & _).
  assert (Hscan :
    scan_digits 0%N 0 0%Z (ch :: rest) =
    Some (last (ch :: rest) 0%N, S (len rest), decimal_value (ch :: rest), [])).
  { cbn [scan_digits]. rewrite Hc, (scan_digits_only rest _ _ _ Hr).
    rewrite <- (last_push rest ch 0%N). reflexivity. }
  assert (Hlimit : (MAX_STR_DIGITS_THRESHOLD <? S (len rest))%nat = false).
  { apply Nat.ltb_ge. exact Hlen. }
  unfold int_str, transform_decimal_and_space_to_ascii.
  replace (is_ascii (sg :: ch :: rest)) with true
    by (unfold is_ascii in *; cbn [forallb] in *;
        destruct Hsg; subst sg; now rewrite Hascii).
  unfold PyLong_FromString. cbn [skip_spaces].
  destruct Hsg; subst sg.
  - change (Py_ISSPACE c_plus) with false. cbv iota.
    rewrite (N.eqb_refl c_plus), Hus, Hscan, Hlus, Hlimit.
    cbn [len List.length Nat.eqb skip_spaces andb].
    now rewrite (proj2 (N.eqb_neq c_plus c_minus)).
  - change (Py_ISSPACE c_minus) with false. cbv iota.
    rewrite (proj2 (N.eqb_neq c_minus c_plus)) by discriminate.
    rewrite (N.eqb_refl c_minus), Hus, Hscan, Hlus, Hlimit.
    cbn [len List.length Nat.eqb skip_spaces andb]. reflexivity.
Qed.

Lemma decimal_value_nonneg (d : str) :
  purely_numeric d = true -> (0 <= decimal_value d)%Z.
Proof.
  intros H. destruct d as [|ch rest]; [discriminate|].
  cbn [purely_numeric] in H. unfold decimal_value.
  now apply fold_digits_grows.
Qed.

Lemma signed_has_no_leading_zero (sg : char) (d : str) :
  sg = c_plus \/ sg = c_minus -> has_leading_zero (sg :: d) = false.
Proof.
  intros [E | E]; subst sg; unfold has_leading_zero;
    apply andb_false_iff; now right.
Qed.

(** A plus sign switches the leading-zero check off: the loop lets
    ['+'] followed by up to 640 digits pass exactly when their decimal
    value is in [0,255], zeros in front or not. *)
Theorem plus_sign_hides_leading_zeros (d : str) :
  purely_numeric d = true ->
  (len d <= MAX_STR_DIGITS_THRESHOLD)%nat ->
  (octet_body rt (c_plus :: d) = Returns None <->
   (0 <= decimal_value d <= 255)%Z).
Proof.
  intros Hnum Hlen. rewrite octet_body_continues.
  rewrite (int_str_signed c_plus d (or_introl eq_refl) Hnum Hlen),
    (signed_has_no_leading_zero c_plus d (or_introl eq_refl)).
  rewrite (proj2 (N.eqb_neq c_plus c_minus)) by discriminate.
  rewrite Z.mul_1_l, <- in_range_iff. split.
  - intros (_ & _ & num & E & Hr). congruence.
  - intros Hr. repeat split; [discriminate|].
    now exists (decimal_value d).
Qed.

(** Behind a minus sign only zero passes: the loop lets ['-'] followed by
    up to 640 digits pass exactly when their decimal value is 0. *)
Theorem minus_sign_passes_zero_only (d : str) :
  purely_numeric d = true ->
  (len d <= MAX_STR_DIGITS_THRESHOLD)%nat ->
  (octet_body rt (c_minus :: d) = Returns None <-> decimal_value d = 0%Z).
Proof.
  intros Hnum Hlen. rewrite octet_body_continues.
  rewrite (int_str_signed c_minus d (or_intror eq_refl) Hnum Hlen),
    (signed_has_no_leading_zero c_minus d (or_intror eq_refl)).
  rewrite (N.eqb_refl c_minus).
  pose proof (decimal_value_nonneg d Hnum) as Hpos. split.
  - intros (_ & _ & num & E & Hr). apply in_range_iff in Hr.
    assert (E' : (-1 * decimal_value d)%Z = num) by congruence. lia.
  - intros Hz. repeat split; [discriminate|].
    exists 0%Z. split; [|reflexivity]. f_equal. lia.
Qed.

(** *** Independence of the interpreter *)

Lemma scan_digits_count (p : str) :
  forall prev digits acc prev' digits' acc' rest,
    scan_digits prev digits acc p = Some (prev', digits', acc', rest) ->
    (digits' <= digits + len p)%nat.
Proof.
  unfold len.
  induction p as [|ch tail IH]; intros prev digits acc prev' digits' acc' rest;
    cbn [scan_digits List.length].
  - intros E. injection E as _ E _ _. lia.
  - destruct (is_digit ch).
    + intros E. apply IH in E. lia.
    + destruct (ch =? c_underscore)%N.
      * destruct (prev =? c_underscore)%N; [discriminate|].
        intros E. apply IH in E. lia.
      * intros E. injection E as _ E _ _. lia.
Qed.

Lemma skip_spaces_len (p : str) : (len (skip_spaces p) <= len p)%nat.
Proof.
  unfold len. induction p as [|ch rest IH]; cbn [skip_spaces List.length]; [lia|].
  destruct (Py_ISSPACE ch); cbn [List.length]; lia.
Qed.

Lemma PyLong_FromString_portable (rt' : runtime) (p : str) :
  (len p <= MAX_STR_DIGITS_THRESHOLD)%nat ->
  PyLong_FromString rt p = PyLong_FromString rt' p.
Proof.
  intros Hlen. pose proof (skip_spaces_len p) as Hskip.
  assert (Hlow : forall prev digits acc rest q,
             scan_digits 0%N 0 0%Z q = Some (prev, digits, acc, rest) ->
             (len q <= len (skip_spaces p))%nat ->
             (MAX_STR_DIGITS_THRESHOLD <? digits)%nat = false).
  { intros prev digits acc rest q E Hq. apply scan_digits_count in E.
    apply Nat.ltb_ge. lia. }
  unfold PyLong_FromString.
  destruct (skip_spaces p) as [|ch rest]; [reflexivity|].
  assert (H1 : (len rest <= len (ch :: rest))%nat)
    by (unfold len; cbn [List.length]; lia).
  assert (H2 : (len (ch :: rest) <= len (ch :: rest))%nat) by lia.
  destruct (ch =? c_plus)%N; [|destruct (ch =? c_minus)%N].
  - destruct rest as [|ch0 rest0]; [reflexivity|].
    destruct (ch0 =? c_underscore)%N; [reflexivity|].
    destruct (scan_digits 0%N 0 0%Z (ch0 :: rest0))
      as [[[[prev digits] acc] left]|] eqn:E; [|reflexivity].
    now rewrite (Hlow _ _ _ _ _ E H1).
  - destruct rest as [|ch0 rest0]; [reflexivity|].
    destruct (ch0 =? c_underscore)%N; [reflexivity|].
    destruct (scan_digits 0%N 0 0%Z (ch0 :: rest0))
      as [[[[prev digits] acc] left]|] eqn:E; [|reflexivity].
    now rewrite (Hlow _ _ _ _ _ E H1).
  - destruct (ch =? c_underscore)%N; [reflexivity|].
    destruct (scan_digits 0%N 0 0%Z (ch :: rest))
      as [[[[prev digits] acc] left]|] eqn:E; [|reflexivity].
    now rewrite (Hlow _ _ _ _ _ E H2).
Qed.

Lemma octet_body_portable (rt' : runtime) (octet : str) :
  is_ascii octet = true -> (len octet <= MAX_STR_DIGITS_THRESHOLD)%nat ->
  octet_body rt octet = octet_body rt' octet.
Proof.
  intros Hascii Hlen. unfold octet_body, int_str.
  unfold transform_decimal_and_space_to_ascii. rewrite Hascii.
  now rewrite (PyLong_FromString_portable rt' octet Hlen).
Qed.

Lemma split_forallb (P : char -> bool) (sep : char) (s : str) :
  forallb P s = true ->
  Forall (fun piece => forallb P piece = true) (split sep s).
Proof.
  induction s as [|ch rest IH]; cbn [split forallb].
  - intros _. now repeat constructor.
  - intros H. apply andb_true_iff in H as [Hc Hr]. specialize (IH Hr).
    destruct (ch =? sep)%N; [now constructor|].
    destruct (split sep rest) as [|piece pieces].
    + repeat constructor. cbn [forallb]. now rewrite Hc.
    + inversion IH; subst. constructor; [|assumption].
      cbn [forallb]. now rewrite Hc.
Qed.

Lemma split_piece_len (sep : char) (s : str) :
  Forall (fun piece => (len piece <= len s)%nat) (split sep s).
Proof.
  unfold len. induction s as [|ch rest IH]; cbn [split List.length].
  - now repeat constructor.
  - assert (Hw : Forall (fun piece => (List.length piece <= S (List.length rest))%nat)
                        (split sep rest)).
    { revert IH. apply Forall_impl. intros; lia. }
    destruct (ch =? sep)%N.
    + constructor; [cbn; lia | exact Hw].
    + destruct (split sep rest) as [|piece pieces].
      * constructor; [cbn; lia | constructor].
      * inversion IH; subst. inversion Hw; subst.
        constructor; [cbn; lia | assumption].
Qed.

(** On an ASCII string of at most 640 characters the verdict is the same
    under every interpreter: neither the table of Unicode digits nor the
    limit on the digits of [int] is consulted. *)
Theorem verdict_is_portable (rt' : runtime) (s : str) :
  is_ascii s = true -> (len s <= MAX_STR_DIGITS_THRESHOLD)%nat ->
  is_valid_ipv4 rt (VStr s) = is_valid_ipv4 rt' (VStr s).
Proof.
  intros Hascii Hlen. rewrite !is_valid_ipv4_str.
  destruct (_ =? _)%nat; [|reflexivity].
  destruct (lstrip_prefix s) as (ws1 & E1 & _).
  destruct (rstrip_suffix (lstrip s)) as (ws2 & E2 & _).
  fold (strip s) in E2.
  assert (Hstrip : is_ascii (strip s) = true /\ (len (strip s) <= len s)%nat).
  { pose proof (f_equal (@List.length char) E1) as L1.
    pose proof (f_equal (@List.length char) E2) as L2.
    rewrite length_app in L1, L2.
    rewrite E1, E2 in Hascii. unfold is_ascii in *.
    rewrite !forallb_app in Hascii.
    apply andb_true_iff in Hascii as [_ Hascii].
    apply andb_true_iff in Hascii as [Hascii _].
    split; [exact Hascii | unfold len; lia]. }
  destruct Hstrip as [Ha Hl].
  pose proof (split_forallb _ c_dot (strip s) Ha) as Hpa.
  pose proof (split_piece_len c_dot (strip s)) as Hpl.
  induction (split c_dot (strip s)) as [|octet rest IH]; [reflexivity|].
  inversion Hpa; subst. inversion Hpl; subst. cbn [for_octets].
  rewrite (octet_body_portable rt' octet) by (assumption || lia).
  destruct (octet_body rt' octet) as [[b|]|e]; cbn [bind]; auto.
Qed.

(** *** The demonstration block *)



(** Run as a script, the module calls [print] 29 times, and the lines that
    end in FAIL are four rows of its own table: the three strings with
    blanks around the address and the one with a blank inside a segment,
    all expected to be invalid and all found valid. *)
Theorem demonstration_has_four_failures :
  List.length (main rt) = 29%nat /\
  filter reports_failure (main rt) =
  [ Verdict (VStr (py "1.2.3.4 ")) false true FAIL;
    Verdict (VStr (py " 1.2.3.4")) false true FAIL;
    Verdict (VStr (py "1.2.3. 4")) false true FAIL;
    Verdict (VStr (py "  192.168.1.1  ")) false true FAIL ].
Proof. split; vm_compute; reflexivity. Qed.

End MoreProperties.

(** ** The further properties at work on CPython 3.11 *)

Lemma grammar_is_accepted_witness :
  is_valid_ipv4 cpython311 (VStr (py " 10.0.0.1 ")) = Returns true.
Proof.
  apply (grammar_is_accepted cpython311 (py " 10.0.0.1 ")). reflexivity.
Defined.

Lemma split_join_witness :
  split c_dot (join c_dot [py "127"; py ""; py "1"]) = [py "127"; py ""; py "1"].
Proof.
  apply (split_join c_dot [py "127"; py ""; py "1"]).
  - discriminate.
  - repeat constructor; vm_compute; intuition discriminate.
Defined.

Lemma dot_placement_law_witness :
  is_valid_ipv4 cpython311 (VStr (py "192.168..1")) = Returns false.
Proof.
  apply (dot_placement_law cpython311 (py "192.168..1") (py "192.168") (py "1")).
  right. right. reflexivity.
Defined.

Lemma accepted_shape_witness :
  count c_dot (strip (py " 0.0.0.0")) = 3%nat /\
  (7 <= len (strip (py " 0.0.0.0")))%nat.
Proof.
  apply (accepted_shape cpython311 (py " 0.0.0.0")). reflexivity.
Defined.

Lemma padding_is_ignored_witness :
  is_valid_ipv4 cpython311 (VStr ([9; 0x3000]%N ++ py "1.2.3.4" ++ [10; 0x1F]%N))
  = is_valid_ipv4 cpython311 (VStr (py "1.2.3.4")).
Proof.
  apply (padding_is_ignored cpython311 [9; 0x3000]%N (py "1.2.3.4") [10; 0x1F]%N);
    reflexivity.
Defined.

Lemma foreign_character_rejected_witness :
  is_valid_ipv4 cpython311 (VStr (py "1.2.3." ++ [0x7F; 0x660]%N))
  = Returns false.
Proof.
  apply (foreign_character_rejected cpython311
           (py "1.2.3." ++ [0x7F; 0x660]%N) 0x7F%N).
  - vm_compute. tauto.
  - right. split; reflexivity.
  - discriminate.
  - reflexivity.
Defined.

Lemma plus_sign_hides_leading_zeros_witness :
  octet_body cpython311 (c_plus :: py "007") = Returns None <->
  (0 <= decimal_value (py "007") <= 255)%Z.
Proof.
  apply (plus_sign_hides_leading_zeros cpython311 (py "007")).
  - reflexivity.
  - vm_compute. lia.
Defined.

Lemma minus_sign_passes_zero_only_witness :
  octet_body cpython311 (c_minus :: py "00") = Returns None <->
  decimal_value (py "00") = 0%Z.
Proof.
  apply (minus_sign_passes_zero_only cpython311 (py "00")).
  - reflexivity.
  - vm_compute. lia.
Defined.

Lemma verdict_is_portable_witness :
  is_valid_ipv4 cpython311 (VStr (py "1_0.+2.3 .-0"))
  = is_valid_ipv4 {| todecimal := fun _ => None; max_str_digits := 0 |}
                  (VStr (py "1_0.+2.3 .-0")).
Proof.
  apply (verdict_is_portable cpython311 _ (py "1_0.+2.3 .-0")).
  - reflexivity.
  - vm_compute. lia.
Defined.
